(** * Dekatrian / Gregorian date conversion

    A shallow embedding of [date_conversion.py] and the properties of its
    conversion functions.  Python integers are unbounded, hence [Z]; Python's
    [%] with a positive divisor is [Z.modulo]; exceptions are carried by a
    small error monad. *)

From Stdlib Require Import ZArith List Bool Lia.
Import ListNotations.
Local Open Scope Z_scope.

(** ** Outcomes of a Python call *)

Inductive exn : Set :=
| IndexError
| OverflowError
| ZeroDivisionError
| UnboundLocalError.

(** [OutOfFuel] is the outcome of a loop model whose fuel is exhausted; the
    totality lemmas below show that it never occurs. *)
Inductive outcome (A : Type) : Type :=
| Ok (a : A)
| Raise (e : exn)
| OutOfFuel.

Arguments Ok {A} a.
Arguments Raise {A} e.
Arguments OutOfFuel {A}.

Definition bind {A B : Type} (c : outcome A) (k : A -> outcome B) : outcome B :=
  match c with
  | Ok a => k a
  | Raise e => Raise e
  | OutOfFuel => OutOfFuel
  end.

Notation "x <- c ;; k" := (bind c (fun x => k))
  (at level 61, c at next level, right associativity).

(** ** Python primitives used by the module *)

Module Py.

(** [bool] is a subclass of [int]: [True] counts as 1 in arithmetic. *)
Definition int_of_bool (b : bool) : Z := if b then 1 else 0.

(** [calendar.isleap]:
    [year % 4 == 0 and (year % 100 != 0 or year % 400 == 0)]. *)
Definition isleap (year : Z) : bool :=
  (year mod 4 =? 0) && (negb (year mod 100 =? 0) || (year mod 400 =? 0)).

(** Tuple subscription [t[i]]: negative indices count from the end, and
    anything outside [-len, len) raises [IndexError]. *)
Definition index (t : list Z) (i : Z) : outcome Z :=
  let len := Z.of_nat (length t) in
  let j := if i <? 0 then i + len else i in
  if (0 <=? j) && (j <? len) then
    match nth_error t (Z.to_nat j) with
    | Some v => Ok v
    | None => Raise IndexError
    end
  else Raise IndexError.

(** [enumerate(t, start)]. *)
Fixpoint enumerate {A : Type} (t : list A) (start : Z) : list (Z * A) :=
  match t with
  | [] => []
  | x :: rest => (start, x) :: enumerate rest (start + 1)
  end.

(** *** True division of integers

    [a / b] on two [int]s is the binary64 float nearest to the exact
    quotient (ties to even), or [OverflowError] when that float would not be
    finite.  A finite float is kept as sign, integral significand and
    exponent: its value is [(-1)^sign * mant * 2^expo]. *)
Record float : Set := mkFloat { fsign : bool; mant : Z; expo : Z }.

(** The quotient [n / d] rounded to the nearest integer, ties to even
    ([0 <= n], [0 < d]). *)
Definition rne_div (n d : Z) : Z :=
  let q := n / d in
  match 2 * (n mod d) ?= d with
  | Lt => q
  | Gt => q + 1
  | Eq => if Z.even q then q else q + 1
  end.

(** The fraction [n / (d * 2^e)] as a pair of integers. *)
Definition scale (n d e : Z) : Z * Z :=
  if 0 <=? e then (n, d * 2 ^ e) else (n * 2 ^ (- e), d).

(** [floor (log2 (n / d))] for positive [n] and [d]. *)
Definition quotient_exponent (n d : Z) : Z :=
  let l := Z.log2 n - Z.log2 d in
  let '(n', d') := scale n d l in
  if d' <=? n' then l else l - 1.

Definition true_divide (a b : Z) : outcome float :=
  if b =? 0 then Raise ZeroDivisionError
  else
    let s := xorb (a <? 0) (b <? 0) in
    if a =? 0 then Ok (mkFloat s 0 0)
    else
      let n := Z.abs a in
      let d := Z.abs b in
      (* 53 significant bits, or fewer in the subnormal range *)
      let e := Z.max (quotient_exponent n d - 52) (-1074) in
      let '(n', d') := scale n d e in
      let m := rne_div n' d' in
      if (0 <=? e) && (2 ^ 1024 <=? m * 2 ^ e) then Raise OverflowError
      else Ok (mkFloat s m e).

(** [int(x)] on a finite float truncates towards zero. *)
Definition int_of_float (x : float) : Z :=
  let magnitude :=
    if 0 <=? expo x then mant x * 2 ^ expo x else mant x / 2 ^ (- expo x) in
  if fsign x then - magnitude else magnitude.

End Py.

(** ** The module's functions *)

(** The twelve month lengths; both [year_day_on_greg_date] and [dek_to_greg]
    build this same tuple from their year argument. *)
Definition gregorian_calendar_months (year : Z) : list Z :=
  let JAN := 31 in
  let FEB := 28 + Py.int_of_bool (Py.isleap year) in
  let MAR := 31 in
  let APR := 30 in
  let MAY := 31 in
  let JUN := 30 in
  let JUL := 31 in
  let AUG := 31 in
  let SEP := 30 in
  let OCT := 31 in
  let NOV := 30 in
  let DEC := 31 in
  [JAN; FEB; MAR; APR; MAY; JUN; JUL; AUG; SEP; OCT; NOV; DEC].

Definition week_day_on_first_auroran (dek_year : Z) : Z :=
  (1 + 5 * (dek_year mod 4) + 4 * (dek_year mod 100) + 6 * (dek_year mod 400))
    mod 7 + 1.

Definition dekatrian_week (dek_day dek_month : Z) : Z :=
  if dek_month =? 0 then 0
  else (dek_day - 1) mod 7 + 1.

Definition dek_to_week (dek_day dek_month dek_year : Z) : Z :=
  let week_day :=
    (week_day_on_first_auroran dek_year + dekatrian_week dek_day dek_month - 2)
      mod 7 + 1 in
  if dek_month =? 0 then (week_day - 3 + dek_day) mod 7 + 1
  else week_day.

Definition year_day_on_deka_date (dek_day dek_month dek_year : Z) : Z :=
  if dek_month =? 0 then dek_day
  else Py.int_of_bool (Py.isleap dek_year) + 1 + (dek_month - 1) * 28 + dek_day.

(** The loop [while i < (month - 1): days += months[i]; i += 1]. *)
Fixpoint while_months (fuel : nat) (months : list Z) (month i days : Z)
  : outcome Z :=
  match fuel with
  | O => OutOfFuel
  | S fuel' =>
      if i <? month - 1 then
        v <- Py.index months i ;;
        while_months fuel' months month (i + 1) (days + v)
      else Ok days
  end.

(** Every iteration but the last reads one more entry of the tuple, so one
    unit of fuel per entry and one for the exit suffice. *)
Definition year_day_on_greg_date (day month year : Z) : outcome Z :=
  let months := gregorian_calendar_months year in
  days <- while_months (S (length months)) months month 0 0 ;;
  Ok (days + day).

(** The loop
    [for month, days in enumerate(months, start=1):
         if year_day > days: year_day -= days
         else: break]
    on the state [(year_day, month)]; [month] is unbound before the first
    iteration. *)
Fixpoint for_months (items : list (Z * Z)) (year_day : Z) (month : option Z)
  : Z * option Z :=
  match items with
  | [] => (year_day, month)
  | (month', days) :: rest =>
      if year_day >? days then for_months rest (year_day - days) (Some month')
      else (year_day, Some month')
  end.

Definition dek_to_greg (dek_day dek_month dek_year : Z) : outcome (Z * Z * Z) :=
  year_day <- year_day_on_greg_date dek_day dek_month dek_year ;;
  let months := gregorian_calendar_months dek_year in
  let '(year_day, month) := for_months (Py.enumerate months 1) year_day None in
  match month with
  | Some month => Ok (year_day, month, dek_year)
  | None => Raise UnboundLocalError
  end.

Definition greg_to_dek (day month year : Z) : outcome (Z * Z * Z) :=
  year_day <- year_day_on_greg_date day month year ;;
  if year_day >? 1 + Py.int_of_bool (Py.isleap year) then
    let year_day := year_day - (1 + Py.int_of_bool (Py.isleap year)) in
    quotient <- Py.true_divide (year_day - 1) 28 ;;
    let dek_month := Py.int_of_float quotient + 1 in
    let dek_day := (year_day - 1) mod 28 + 1 in
    Ok (dek_day, dek_month, year)
  else
    let dek_month := 0 in
    let dek_day := day in
    Ok (dek_day, dek_month, year).

(** ** Validity of dates, as the data model states it *)

Definition month_length (month year : Z) : Z :=
  nth (Z.to_nat (month - 1)) (gregorian_calendar_months year) 0.

Definition valid_greg (day month year : Z) : bool :=
  (1 <=? month) && (month <=? 12) &&
  (1 <=? day) && (day <=? month_length month year).

Definition valid_dek (day month year : Z) : bool :=
  if month =? 0 then (day =? 1) || ((day =? 2) && Py.isleap year)
  else (1 <=? month) && (month <=? 13) && (1 <=? day) && (day <=? 28).

(** ** Reference definitions

    The properties below compare the module with the usual day count of the
    proleptic Gregorian calendar and with the conversion as the design
    describes it. *)

Module Reference.

(** Days elapsed before 1 January of [year]; day 1 is Monday 1 January of
    year 1. *)
Definition days_before_year (year : Z) : Z :=
  365 * (year - 1) + (year - 1) / 4 - (year - 1) / 100 + (year - 1) / 400.

Definition days_before_month (month year : Z) : Z :=
  (367 * month - 362) / 12
  + (if month <=? 2 then 0 else if Py.isleap year then -1 else -2).

Definition day_number (day month year : Z) : Z :=
  days_before_year year + days_before_month month year + day.

(** 1 = Sunday, ..., 7 = Saturday. *)
Definition weekday (day month year : Z) : Z :=
  day_number day month year mod 7 + 1.

(** Dekatrian to Gregorian as designed: the Dekatrian day of the year, then
    the walk along the month lengths. *)
Definition dek_to_greg_by_deka_ordinal (dek_day dek_month dek_year : Z)
  : outcome (Z * Z * Z) :=
  let year_day := year_day_on_deka_date dek_day dek_month dek_year in
  let months := gregorian_calendar_months dek_year in
  let '(year_day, month) := for_months (Py.enumerate months 1) year_day None in
  match month with
  | Some month => Ok (year_day, month, dek_year)
  | None => Raise UnboundLocalError
  end.

End Reference.

(** The two compositions of the round-trip law. *)
Definition greg_round_trip (day month year : Z) : outcome (Z * Z * Z) :=
  dek <- greg_to_dek day month year ;;
  let '(dek_day, dek_month, dek_year) := dek in
  dek_to_greg dek_day dek_month dek_year.

Definition dek_round_trip (dek_day dek_month dek_year : Z)
  : outcome (Z * Z * Z) :=
  greg <- dek_to_greg dek_day dek_month dek_year ;;
  let '(day, month, year) := greg in
  greg_to_dek day month year.

Definition zsum (l : list Z) : Z := fold_right Z.add 0 l.

(** Days of the year before the first of [month], along the module's tuple. *)
Definition days_before (month year : Z) : Z :=
  zsum (firstn (Z.to_nat (month - 1)) (gregorian_calendar_months year)).

(** The weekday of the first Auroran against the reference day count, as a
    test on one year: against the date with the ordinal of 1/1 Dekatrian, and
    against 1 January of the next year. *)
Definition auroran_weekday_check (year : Z) : bool :=
  (week_day_on_first_auroran year
   =? Reference.weekday (year_day_on_deka_date 1 1 year) 1 year)
  && (week_day_on_first_auroran year =? Reference.weekday 1 1 (year + 1)).

(** ** Facts about the Python primitives *)

Section Primitives.

Lemma int_of_bool_range b : 0 <= Py.int_of_bool b <= 1.
Proof. destruct b; simpl; lia. Qed.

(** [calendar.isleap] is the proleptic Gregorian rule. *)
Lemma isleap_spec year :
  Py.isleap year = true <->
  (4 | year) /\ (~ (100 | year) \/ (400 | year)).
Proof.
  unfold Py.isleap.
  rewrite andb_true_iff, orb_true_iff, negb_true_iff, !Z.eqb_eq, Z.eqb_neq.
  rewrite <- !Z.mod_divide by lia. reflexivity.
Qed.

Lemma index_in_range t i v :
  nth_error t (Z.to_nat i) = Some v -> 0 <= i ->
  Py.index t i = Ok v.
Proof.
  intros Hnth Hi. unfold Py.index.
  assert (Hlt : (Z.to_nat i < length t)%nat)
    by (apply nth_error_Some; congruence).
  replace (i <? 0) with false by lia.
  replace ((0 <=? i) && (i <? Z.of_nat (length t))) with true
    by (symmetry; apply andb_true_iff; lia).
  now rewrite Hnth.
Qed.

Lemma index_past_end t i :
  Z.of_nat (length t) <= i -> Py.index t i = Raise IndexError.
Proof.
  intros Hi. unfold Py.index.
  replace (i <? 0) with false by lia.
  replace (i <? Z.of_nat (length t)) with false by lia.
  now rewrite andb_false_r.
Qed.

Lemma rne_div_near n d :
  0 < d -> 2 * n - d <= 2 * (d * Py.rne_div n d) <= 2 * n + d.
Proof.
  intros Hd. unfold Py.rne_div.
  pose proof (Z.div_mod n d ltac:(lia)) as Hn.
  pose proof (Z.mod_pos_bound n d Hd) as Hr.
  destruct (Z.compare_spec (2 * (n mod d)) d);
    [destruct (Z.even (n / d)) | | ]; nia.
Qed.

Lemma quotient_exponent_le n d :
  Py.quotient_exponent n d <= Z.log2 n - Z.log2 d.
Proof.
  unfold Py.quotient_exponent.
  destruct (Py.scale n d (Z.log2 n - Z.log2 d)) as [n' d'].
  destruct (d' <=? n'); lia.
Qed.

(** Rounding a quotient by 28 to a grid of step at most 1/16 never crosses
    an integer that the exact quotient has not reached. *)
Lemma rounded_quotient_floor a K :
  0 <= a -> 16 <= K -> Py.rne_div (a * K) 28 / K = a / 28.
Proof.
  intros Ha HK.
  pose proof (rne_div_near (a * K) 28 ltac:(lia)) as Hm.
  pose proof (Z.div_mod a 28 ltac:(lia)) as Hq.
  pose proof (Z.mod_pos_bound a 28 ltac:(lia)) as Hr.
  set (m := Py.rne_div (a * K) 28) in *.
  set (q := a / 28) in *. set (r := a mod 28) in *.
  assert (HaK : a * K = 28 * (K * q) + r * K) by (rewrite Hq; ring).
  assert (HrK : 0 <= r * K <= 27 * K) by nia.
  assert (Hr0 : r = 0 \/ K <= r * K) by nia.
  symmetry. apply Z.div_unique with (r := m - K * q); [left | ring].
  destruct Hr0 as [Hr0 | Hr0]; [rewrite Hr0 in *|]; lia.
Qed.

(** Below [2^53] the float quotient by 28, truncated, is the floor
    quotient. *)
Lemma true_divide_28 a :
  0 <= a < 2 ^ 53 ->
  exists x, Py.true_divide a 28 = Ok x /\ Py.int_of_float x = a / 28.
Proof.
  intros [Ha0 Ha]. unfold Py.true_divide.
  change (28 =? 0) with false. change (28 <? 0) with false.
  replace (a <? 0) with false by lia. cbv iota. simpl xorb.
  destruct (Z.eqb_spec a 0) as [-> | Hne].
  - eexists; split; [reflexivity | reflexivity].
  - rewrite (Z.abs_eq a) by lia. change (Z.abs 28) with 28.
    set (e := Z.max (Py.quotient_exponent a 28 - 52) (-1074)).
    assert (He : e <= -4).
    { pose proof (quotient_exponent_le a 28) as Hqe.
      change (Z.log2 28) with 4 in Hqe.
      assert (Z.log2 a < 53) by (apply Z.log2_lt_pow2; lia).
      subst e. lia. }
    unfold Py.scale. replace (0 <=? e) with false by lia.
    rewrite andb_false_l.
    eexists; split; [reflexivity|].
    unfold Py.int_of_float; simpl.
    replace (0 <=? e) with false by lia.
    apply rounded_quotient_floor; [lia|].
    change 16 with (2 ^ 4). apply Z.pow_le_mono_r; lia.
Qed.

End Primitives.

(** ** The two loops *)

Section Loops.

Lemma skipn_cons_nth (A : Type) (l : list A) n v :
  nth_error l n = Some v -> skipn n l = v :: skipn (S n) l.
Proof.
  revert l; induction n as [|n IH]; intros [|x l] Hn; simpl in *;
    try discriminate.
  - now injection Hn as ->.
  - now apply IH.
Qed.

(** The [while] loop adds the entries from [i] up to [month - 1], and fails
    only when [month - 1] lies beyond the tuple. *)
Lemma while_months_run fuel months month i days :
  0 <= i <= Z.of_nat (length months) ->
  (length months - Z.to_nat i < fuel)%nat ->
  while_months fuel months month i days =
    if month - 1 <=? Z.of_nat (length months)
    then Ok (days + zsum (firstn (Z.to_nat (month - 1 - i))
                                 (skipn (Z.to_nat i) months)))
    else Raise IndexError.
Proof.
  revert i days; induction fuel as [|fuel IH]; intros i days Hi Hfuel;
    [lia|].
  simpl. destruct (Z.ltb_spec i (month - 1)) as [Hlt | Hge].
  - destruct (nth_error months (Z.to_nat i)) as [v|] eqn:Hnth.
    + assert ((Z.to_nat i < length months)%nat)
        by (apply nth_error_Some; congruence).
      rewrite (index_in_range _ _ _ Hnth) by lia. simpl.
      rewrite IH by lia.
      destruct (month - 1 <=? Z.of_nat (length months)); [|reflexivity].
      replace (Z.to_nat (month - 1 - i)) with (S (Z.to_nat (month - 1 - (i + 1))))
        by lia.
      replace (Z.to_nat (i + 1)) with (S (Z.to_nat i)) by lia.
      rewrite (skipn_cons_nth _ _ _ _ Hnth), firstn_cons.
      apply f_equal. unfold zsum. cbn [fold_right]. lia.
    + apply nth_error_None in Hnth.
      rewrite index_past_end by lia. simpl.
      replace (month - 1 <=? Z.of_nat (length months)) with false by lia.
      reflexivity.
  - replace (month - 1 <=? Z.of_nat (length months)) with true by lia.
    replace (Z.to_nat (month - 1 - i)) with 0%nat by lia.
    simpl. f_equal. lia.
Qed.

(** [year_day_on_greg_date] on every input: months up to 13 stay inside the
    tuple, later ones read past its end. *)
Lemma year_day_on_greg_date_run day month year :
  year_day_on_greg_date day month year =
    if month <=? 13 then Ok (days_before month year + day)
    else Raise IndexError.
Proof.
  unfold year_day_on_greg_date, days_before.
  cbv zeta. rewrite while_months_run by (simpl; lia).
  change (Z.of_nat (length (gregorian_calendar_months year))) with 12.
  destruct (Z.leb_spec (month - 1) 12); destruct (Z.leb_spec month 13);
    try lia; [|reflexivity].
  simpl bind. now rewrite Z.sub_0_r.
Qed.

(** The [for] loop leaves [month] bound to one of the enumerated numbers. *)
Lemma for_months_month months start year_day month year_day' month' :
  for_months (Py.enumerate months start) year_day month = (year_day', month') ->
  month' = month \/
  exists m, month' = Some m /\ start <= m < start + Z.of_nat (length months).
Proof.
  revert start year_day month.
  induction months as [|days rest IH]; intros start year_day month Hrun;
    simpl in Hrun.
  - left. congruence.
  - right. destruct (year_day >? days).
    + apply IH in Hrun. destruct Hrun as [-> | (m & -> & Hm)].
      * exists start. simpl length. split; [reflexivity | lia].
      * exists m. simpl length. split; [reflexivity | lia].
    + injection Hrun as _ <-. exists start. simpl length.
      split; [reflexivity | lia].
Qed.

Lemma for_months_bound days rest start year_day month :
  exists year_day' m,
    for_months (Py.enumerate (days :: rest) start) year_day month
      = (year_day', Some m)
    /\ start <= m < start + Z.of_nat (length (days :: rest)).
Proof.
  destruct (for_months (Py.enumerate (days :: rest) start) year_day month)
    as [year_day' month'] eqn:Hrun.
  pose proof Hrun as Hm. apply for_months_month in Hm.
  simpl in Hrun. destruct (year_day >? days).
  - apply for_months_month in Hrun.
    destruct Hrun as [-> | (m & -> & Hrange)].
    + exists year_day', start. split; [reflexivity | simpl length; lia].
    + exists year_day', m. split; [reflexivity | simpl length; lia].
  - injection Hrun as _ <-.
    exists year_day', start. split; [reflexivity | simpl length; lia].
Qed.

End Loops.

(** ** Day of the year of a valid Gregorian date *)

(** Closed [Z.to_nat] indices are evaluated before a list is inspected. *)
Ltac eval_to_nat :=
  repeat match goal with
    | |- context [Z.to_nat ?c] =>
        let n := eval vm_compute in (Z.to_nat c) in
        change (Z.to_nat c) with n
    | H : context [Z.to_nat ?c] |- _ =>
        let n := eval vm_compute in (Z.to_nat c) in
        change (Z.to_nat c) with n in H
    end.

Section GregorianOrdinal.

Lemma valid_greg_inv day month year :
  valid_greg day month year = true ->
  1 <= month <= 12 /\ 1 <= day <= month_length month year.
Proof.
  unfold valid_greg. rewrite !andb_true_iff. lia.
Qed.

Lemma month_cases month :
  1 <= month <= 12 ->
  month = 1 \/ month = 2 \/ month = 3 \/ month = 4 \/ month = 5 \/ month = 6 \/
  month = 7 \/ month = 8 \/ month = 9 \/ month = 10 \/ month = 11 \/ month = 12.
Proof. lia. Qed.

(** A valid date has an ordinal inside the year; the first two ordinals belong
    to January. *)
Lemma valid_greg_ordinal day month year :
  valid_greg day month year = true ->
  let leap := Py.int_of_bool (Py.isleap year) in
  let year_day := days_before month year + day in
  1 <= year_day <= 365 + leap /\ (year_day <= 1 + leap -> day = year_day).
Proof.
  intros Hvalid. apply valid_greg_inv in Hvalid as [Hmonth Hday].
  unfold days_before, month_length, gregorian_calendar_months in *.
  cbv zeta in *.
  apply month_cases in Hmonth.
  destruct (Py.isleap year);
    repeat (destruct Hmonth as [-> | Hmonth]); try subst month;
    eval_to_nat; cbn [firstn nth fold_right zsum Py.int_of_bool] in *; lia.
Qed.

Lemma true_divide_outcomes a b :
  b <> 0 ->
  (exists x, Py.true_divide a b = Ok x) \/
  Py.true_divide a b = Raise OverflowError.
Proof.
  intros Hb. unfold Py.true_divide.
  destruct (Z.eqb_spec b 0); [contradiction|].
  destruct (a =? 0); [left; eexists; reflexivity|].
  destruct (Py.scale _ _ _) as [n' d'].
  destruct (_ && _); [right; reflexivity | left; eexists; reflexivity].
Qed.

(** [greg_to_dek] on every date whose ordinal the floats represent exactly. *)
Lemma greg_to_dek_run day month year :
  month <= 13 ->
  let leap := Py.int_of_bool (Py.isleap year) in
  let year_day := days_before month year + day in
  year_day < 2 ^ 53 ->
  greg_to_dek day month year =
    if year_day >? 1 + leap
    then Ok ((year_day - (1 + leap) - 1) mod 28 + 1,
             (year_day - (1 + leap) - 1) / 28 + 1, year)
    else Ok (day, 0, year).
Proof.
  intros Hmonth leap year_day Hsmall. unfold greg_to_dek.
  rewrite year_day_on_greg_date_run.
  replace (month <=? 13) with true by lia. cbn [bind].
  fold leap year_day.
  destruct (Z.gtb_spec year_day (1 + leap)) as [Hgt | Hle]; [|reflexivity].
  pose proof (int_of_bool_range (Py.isleap year)) as Hleap.
  fold leap in Hleap.
  destruct (true_divide_28 (year_day - (1 + leap) - 1)) as (x & Hx & Hint);
    [lia|].
  rewrite Hx. cbn [bind]. now rewrite Hint.
Qed.

End GregorianOrdinal.

(** ** Outcomes of the two conversions *)

Section Conversions.

(** Up to month 13 [dek_to_greg] returns, with a month of the tuple. *)
Lemma dek_to_greg_returns day month year :
  month <= 13 ->
  exists greg_day greg_month,
    dek_to_greg day month year = Ok (greg_day, greg_month, year) /\
    1 <= greg_month <= 12.
Proof.
  intros Hmonth. unfold dek_to_greg.
  rewrite year_day_on_greg_date_run.
  replace (month <=? 13) with true by lia. cbn [bind].
  unfold gregorian_calendar_months. cbv zeta.
  match goal with
  | |- context [for_months (Py.enumerate (?d :: ?r) 1) ?n None] =>
      destruct (for_months_bound d r 1 n None) as (n' & m & -> & Hm)
  end.
  exists n', m. split; [reflexivity|]. simpl length in Hm. lia.
Qed.

Lemma dek_to_greg_past_table day month year :
  13 < month -> dek_to_greg day month year = Raise IndexError.
Proof.
  intros Hmonth. unfold dek_to_greg.
  rewrite year_day_on_greg_date_run.
  now replace (month <=? 13) with false by lia.
Qed.

Lemma greg_to_dek_past_table day month year :
  13 < month -> greg_to_dek day month year = Raise IndexError.
Proof.
  intros Hmonth. unfold greg_to_dek.
  rewrite year_day_on_greg_date_run.
  now replace (month <=? 13) with false by lia.
Qed.

(** Up to month 13 [greg_to_dek] returns with the year it was given, unless
    the quotient by 28 is too large for a float. *)
Lemma greg_to_dek_returns day month year :
  month <= 13 ->
  (exists dek_day dek_month,
      greg_to_dek day month year = Ok (dek_day, dek_month, year)) \/
  greg_to_dek day month year = Raise OverflowError.
Proof.
  intros Hmonth. unfold greg_to_dek.
  rewrite year_day_on_greg_date_run.
  replace (month <=? 13) with true by lia. cbn [bind].
  destruct (_ >? _); [|left; eexists _, _; reflexivity].
  match goal with
  | |- context [Py.true_divide ?a 28] =>
      destruct (true_divide_outcomes a 28 ltac:(lia)) as [[x ->] | ->]
  end.
  - left. eexists _, _; reflexivity.
  - right. reflexivity.
Qed.

End Conversions.

(** The calls of the module's demonstration block. *)
Example demonstration_block :
  dek_to_week 28 13 2015 = 5 /\ dek_to_week 1 0 2016 = 6 /\
  dek_to_week 2 0 2016 = 7 /\ dek_to_week 1 1 2016 = 1 /\
  dekatrian_week 1 0 = 0 /\ week_day_on_first_auroran 2016 = 1 /\
  year_day_on_deka_date 3 1 2017 = 4 /\
  dek_to_greg 10 10 2017 = Ok (10, 10, 2017) /\
  year_day_on_greg_date 29 12 2016 = Ok 364 /\
  greg_to_dek 3 1 2016 = Ok (1, 1, 2016).
Proof. repeat split. Qed.

(** Past the table and past the year: month 14 reads entry 12 of the tuple,
    and an overlong ordinal is left in December. *)
Example out_of_range_inputs :
  dek_to_greg 10 14 2017 = Raise IndexError /\
  greg_to_dek 10 14 2017 = Raise IndexError /\
  dek_to_greg 1000 13 2017 = Ok (1000, 12, 2017) /\
  greg_to_dek (10 ^ 400) 1 2017 = Raise OverflowError.
Proof. repeat split. Qed.

(** The float quotient stops agreeing with the floor quotient only far
    beyond any day of the year. *)
Example true_divide_rounds_up :
  exists x, Py.true_divide (28 * 2 ^ 49 + 27) 28 = Ok x /\
            Py.int_of_float x = 2 ^ 49 + 1.
Proof. eexists. split; reflexivity. Qed.

(** ** Properties of the conversions *)

(** C4 (intercalary bound).  For a valid Gregorian date [greg_to_dek] returns
    month 0 only when the day of the year computed by [year_day_on_greg_date]
    is at most [1 + leap(year)]; for a larger ordinal the month is at least
    1. *)
Theorem greg_to_dek_intercalary_bound day month year :
  valid_greg day month year = true ->
  exists year_day dek_day dek_month,
    year_day_on_greg_date day month year = Ok year_day /\
    greg_to_dek day month year = Ok (dek_day, dek_month, year) /\
    (dek_month = 0 -> year_day <= 1 + Py.int_of_bool (Py.isleap year)) /\
    (1 + Py.int_of_bool (Py.isleap year) < year_day -> 1 <= dek_month).
Proof.
  intros Hvalid.
  pose proof (valid_greg_ordinal _ _ _ Hvalid) as [Hrange _].
  apply valid_greg_inv in Hvalid as [Hmonth _].
  pose proof (int_of_bool_range (Py.isleap year)) as Hleap.
  cbv zeta in Hrange.
  rewrite year_day_on_greg_date_run, greg_to_dek_run by lia.
  replace (month <=? 13) with true by lia.
  set (year_day := days_before month year + day) in *.
  set (leap := Py.int_of_bool (Py.isleap year)) in *.
  exists year_day.
  destruct (Z.gtb_spec year_day (1 + leap)) as [Hgt | Hle].
  - eexists _, _. repeat split; try reflexivity.
    + intros H0.
      pose proof (Z.div_pos (year_day - (1 + leap) - 1) 28 ltac:(lia) ltac:(lia)).
      lia.
    + intros _.
      pose proof (Z.div_pos (year_day - (1 + leap) - 1) 28 ltac:(lia) ltac:(lia)).
      lia.
  - exists day, 0. repeat split; try reflexivity; lia.
Qed.

Lemma greg_to_dek_intercalary_bound_witness :
  valid_greg 3 1 2016 = true /\
  exists year_day dek_day dek_month,
    year_day_on_greg_date 3 1 2016 = Ok year_day /\
    greg_to_dek 3 1 2016 = Ok (dek_day, dek_month, 2016) /\
    (dek_month = 0 -> year_day <= 1 + Py.int_of_bool (Py.isleap 2016)) /\
    (1 + Py.int_of_bool (Py.isleap 2016) < year_day -> 1 <= dek_month).
Proof.
  split; [reflexivity|].
  apply (greg_to_dek_intercalary_bound 3 1 2016). reflexivity.
Defined.

(** C5 (leap-year day count).  The last day of the Dekatrian year, 28/13, has
    ordinal 365 plus one in a leap year. *)
Theorem last_dekatrian_day_ordinal year :
  year_day_on_deka_date 28 13 year
  = 365 + (if Py.isleap year then 1 else 0).
Proof.
  unfold year_day_on_deka_date. change (13 =? 0) with false. cbv iota.
  unfold Py.int_of_bool. lia.
Qed.

(** C6.  For a date inside one of the 13 months, [dek_to_week] is the base
    value [(week_day_on_first_auroran(year) + dekatrian_week(day, month) - 2)
    mod 7 + 1]; for an intercalary day (month 0, day 1 or 2) it is
    [(base - 3 + day) mod 7 + 1], where [dekatrian_week(day, 0)] is 0. *)
Theorem dek_to_week_formula day month year :
  let base :=
    (week_day_on_first_auroran year + dekatrian_week day month - 2) mod 7 + 1
  in
  (1 <= month <= 13 -> 1 <= day <= 28 -> dek_to_week day month year = base) /\
  (month = 0 -> day = 1 \/ day = 2 ->
   dekatrian_week day month = 0 /\
   dek_to_week day month year = (base - 3 + day) mod 7 + 1).
Proof.
  cbv zeta. unfold dek_to_week. split.
  - intros Hmonth _. now replace (month =? 0) with false by lia.
  - intros -> _. split; reflexivity.
Qed.

Lemma dek_to_week_formula_witness :
  (1 <= 13 <= 13 /\ 1 <= 28 <= 28 /\ dek_to_week 28 13 2015 = 5) /\
  (2 = 1 \/ 2 = 2) /\ dekatrian_week 2 0 = 0 /\ dek_to_week 2 0 2016 = 7.
Proof.
  split; [split; [lia | split; [lia|]] | split; [right; reflexivity|]].
  - rewrite (proj1 (dek_to_week_formula 28 13 2015)) by lia. reflexivity.
  - destruct (proj2 (dek_to_week_formula 2 0 2016) eq_refl (or_intror eq_refl))
      as [Hweek Hday].
    split; [exact Hweek|]. rewrite Hday. reflexivity.
Defined.

(** C8.  Whenever [dek_to_greg] or [greg_to_dek] returns a tuple, its year
    component is the input year; neither loop runs out of steps, and the only
    inputs without a tuple are months past 13 (the month tuple is read past
    its end) and, for [greg_to_dek], ordinals too large for a float. *)
Theorem year_component_unchanged day month year :
  match dek_to_greg day month year with
  | Ok (_, _, y) => y = year
  | Raise e => e = IndexError /\ 13 < month
  | OutOfFuel => False
  end /\
  match greg_to_dek day month year with
  | Ok (_, _, y) => y = year
  | Raise e => (e = IndexError /\ 13 < month) \/ e = OverflowError
  | OutOfFuel => False
  end.
Proof.
  destruct (Z.le_gt_cases month 13) as [Hle | Hgt].
  - split.
    + destruct (dek_to_greg_returns day month year Hle) as (d & m & -> & _).
      reflexivity.
    + destruct (greg_to_dek_returns day month year Hle) as [(d & m & ->) | ->].
      * reflexivity.
      * now right.
  - rewrite dek_to_greg_past_table, greg_to_dek_past_table by assumption.
    split; [|left]; split; trivial.
Qed.

(** C9.  A valid Gregorian date is converted to a well-formed Dekatrian date:
    month 0 with day 1, or day 2 in a leap year, or else a month from 1 to 13
    with a day from 1 to 28. *)
Theorem greg_to_dek_valid day month year :
  valid_greg day month year = true ->
  exists dek_day dek_month,
    greg_to_dek day month year = Ok (dek_day, dek_month, year) /\
    ((dek_month = 0 /\
      (dek_day = 1 \/ (dek_day = 2 /\ Py.isleap year = true))) \/
     (1 <= dek_month <= 13 /\ 1 <= dek_day <= 28)).
Proof.
  intros Hvalid.
  pose proof (valid_greg_ordinal _ _ _ Hvalid) as [Hrange Hday].
  apply valid_greg_inv in Hvalid as [Hmonth _].
  cbv zeta in Hrange, Hday.
  pose proof (int_of_bool_range (Py.isleap year)) as Hleap.
  rewrite greg_to_dek_run by lia.
  set (year_day := days_before month year + day) in *.
  destruct (Z.gtb_spec year_day (1 + Py.int_of_bool (Py.isleap year)))
    as [Hgt | Hle].
  - eexists _, _. split; [reflexivity|]. right.
    Z.div_mod_to_equations. lia.
  - exists day, 0. split; [reflexivity|]. left. split; [reflexivity|].
    specialize (Hday Hle).
    destruct (Py.isleap year); cbn [Py.int_of_bool] in *.
    + destruct (Z.eq_dec day 1); [left | right; split]; trivial; lia.
    + left. lia.
Qed.

Lemma greg_to_dek_valid_witness :
  valid_greg 31 12 2016 = true /\
  exists dek_day dek_month,
    greg_to_dek 31 12 2016 = Ok (dek_day, dek_month, 2016) /\
    ((dek_month = 0 /\
      (dek_day = 1 \/ (dek_day = 2 /\ Py.isleap 2016 = true))) \/
     (1 <= dek_month <= 13 /\ 1 <= dek_day <= 28)).
Proof.
  split; [reflexivity|].
  apply (greg_to_dek_valid 31 12 2016). reflexivity.
Defined.

(** C10.  With a month from 0 to 13 and any day, [dek_to_greg] returns
    without an error, and the month it returns lies between 1 and 12, however
    large the day of the year it computed. *)
Theorem dek_to_greg_total day month year :
  0 <= month <= 13 ->
  exists greg_day greg_month,
    dek_to_greg day month year = Ok (greg_day, greg_month, year) /\
    1 <= greg_month <= 12.
Proof.
  intros [_ Hmonth]. now apply dek_to_greg_returns.
Qed.

Lemma dek_to_greg_total_witness :
  0 <= 13 <= 13 /\
  exists greg_day greg_month,
    dek_to_greg 1000 13 2017 = Ok (greg_day, greg_month, 2017) /\
    1 <= greg_month <= 12.
Proof.
  split; [lia|].
  apply (dek_to_greg_total 1000 13 2017). lia.
Defined.

(** ** The weekday of the first Auroran *)

Section Weekday.

Lemma check_below (P : Z -> bool) (n : nat) :
  forallb P (map Z.of_nat (seq 0 n)) = true ->
  forall r, 0 <= r < Z.of_nat n -> P r = true.
Proof.
  intros Hall r Hr. rewrite forallb_forall in Hall. apply Hall.
  apply in_map_iff. exists (Z.to_nat r). split; [lia|].
  apply in_seq. lia.
Qed.

(** Everything involved repeats with the 400-year cycle, which is a whole
    number of weeks (146097 = 7 * 20871 days). *)
Lemma week_day_on_first_auroran_period q s :
  week_day_on_first_auroran (400 * q + s) = week_day_on_first_auroran s.
Proof.
  unfold week_day_on_first_auroran.
  assert (H4 : (400 * q + s) mod 4 = s mod 4)
    by (Z.div_mod_to_equations; lia).
  assert (H100 : (400 * q + s) mod 100 = s mod 100)
    by (Z.div_mod_to_equations; lia).
  assert (H400 : (400 * q + s) mod 400 = s mod 400)
    by (Z.div_mod_to_equations; lia).
  now rewrite H4, H100, H400.
Qed.

Lemma isleap_period q s : Py.isleap (400 * q + s) = Py.isleap s.
Proof.
  unfold Py.isleap.
  assert (H4 : (400 * q + s) mod 4 = s mod 4)
    by (Z.div_mod_to_equations; lia).
  assert (H100 : (400 * q + s) mod 100 = s mod 100)
    by (Z.div_mod_to_equations; lia).
  assert (H400 : (400 * q + s) mod 400 = s mod 400)
    by (Z.div_mod_to_equations; lia).
  now rewrite H4, H100, H400.
Qed.

Lemma days_before_year_period q s :
  Reference.days_before_year (400 * q + s)
  = 146097 * q + Reference.days_before_year s.
Proof.
  unfold Reference.days_before_year. Z.div_mod_to_equations. lia.
Qed.

Lemma weekday_january_period day q s :
  Reference.weekday day 1 (400 * q + s) = Reference.weekday day 1 s.
Proof.
  unfold Reference.weekday, Reference.day_number.
  rewrite days_before_year_period.
  unfold Reference.days_before_month. change (1 <=? 2) with true. cbv iota.
  f_equal.
  replace (146097 * q + Reference.days_before_year s
           + ((367 * 1 - 362) / 12 + 0) + day)
    with (Reference.days_before_year s + ((367 * 1 - 362) / 12 + 0) + day
          + 20871 * q * 7) by ring.
  apply Z.mod_add. lia.
Qed.

Lemma auroran_weekday_check_period q s :
  auroran_weekday_check (400 * q + s) = auroran_weekday_check s.
Proof.
  unfold auroran_weekday_check, year_day_on_deka_date.
  replace (400 * q + s + 1) with (400 * q + (s + 1)) by ring.
  now rewrite week_day_on_first_auroran_period, isleap_period,
    !weekday_january_period.
Qed.

Lemma auroran_weekday_check_all year : auroran_weekday_check year = true.
Proof.
  rewrite (Z.div_mod year 400) by lia.
  rewrite auroran_weekday_check_period.
  apply (check_below auroran_weekday_check 400).
  - vm_compute. reflexivity.
  - apply (Z.mod_pos_bound year 400). lia.
Qed.

End Weekday.

(** The reference count on known dates: Thursday 1 January 1970, Saturday
    1 January 2000, Tuesday 3 November 2026. *)
Example weekday_known_dates :
  Reference.weekday 1 1 1970 = 5 /\ Reference.weekday 1 1 2000 = 7 /\
  Reference.weekday 3 11 2026 = 3.
Proof. repeat split. Qed.

(** C3 as stated fails: 1 January 2016 was a Friday (6), and the function
    answers Sunday (1). *)
Lemma week_day_on_first_auroran_not_january_first :
  week_day_on_first_auroran 2016 = 1 /\ Reference.weekday 1 1 2016 = 6 /\
  ~ (forall year, week_day_on_first_auroran year = Reference.weekday 1 1 year).
Proof.
  repeat split. intros Hall. specialize (Hall 2016). discriminate Hall.
Qed.

(** C3, amended.  For every year [week_day_on_first_auroran] is the weekday
    (1 = Sunday, ..., 7 = Saturday) of the first Auroran, the day with
    Dekatrian ordinal [year_day_on_deka_date(1, 1, year)]: 2 January, or
    3 January in a leap year.  That is also the weekday of 1 January of the
    following year. *)
Theorem week_day_on_first_auroran_weekday year :
  year_day_on_deka_date 1 1 year = 2 + (if Py.isleap year then 1 else 0) /\
  week_day_on_first_auroran year
  = Reference.weekday (year_day_on_deka_date 1 1 year) 1 year /\
  week_day_on_first_auroran year = Reference.weekday 1 1 (year + 1) /\
  1 <= week_day_on_first_auroran year <= 7.
Proof.
  pose proof (auroran_weekday_check_all year) as Hcheck.
  unfold auroran_weekday_check in Hcheck.
  apply andb_true_iff in Hcheck as [Hauroran Hnext].
  apply Z.eqb_eq in Hauroran, Hnext.
  repeat split; trivial.
  - unfold year_day_on_deka_date, Py.int_of_bool. cbn.
    destruct (Py.isleap year); lia.
  - unfold week_day_on_first_auroran. Z.div_mod_to_equations. lia.
  - unfold week_day_on_first_auroran. Z.div_mod_to_equations. lia.
Qed.

(** C7 as stated fails: the month returned for 3 January 2016 is not 0. *)
Lemma greg_to_dek_3_1_2016_not_intercalary :
  ~ (exists dek_day dek_year, greg_to_dek 3 1 2016 = Ok (dek_day, 0, dek_year)).
Proof.
  intros (dek_day & dek_year & Hrun). vm_compute in Hrun. discriminate Hrun.
Qed.

(** C7, amended.  [greg_to_dek(3, 1, 2016)] is [(1, 1, 2016)]: the third day
    of a leap year is the first day of month 1. *)
Theorem greg_to_dek_3_1_2016 : greg_to_dek 3 1 2016 = Ok (1, 1, 2016).
Proof. vm_compute. reflexivity. Qed.

(** C1.  The round trip is broken in both directions.  3 January 2016 goes to
    1/1/2016 Dekatrian and comes back as 1 January 2016; 1/1/2017 Dekatrian
    goes to 1 January 2017 and comes back as the intercalary day 1/0/2017. *)
Theorem round_trip_broken :
  valid_greg 3 1 2016 = true /\
  greg_to_dek 3 1 2016 = Ok (1, 1, 2016) /\
  dek_to_greg 1 1 2016 = Ok (1, 1, 2016) /\
  greg_round_trip 3 1 2016 = Ok (1, 1, 2016) /\
  valid_dek 1 1 2017 = true /\
  dek_to_greg 1 1 2017 = Ok (1, 1, 2017) /\
  greg_to_dek 1 1 2017 = Ok (1, 0, 2017) /\
  dek_round_trip 1 1 2017 = Ok (1, 0, 2017).
Proof. repeat split; vm_compute; reflexivity. Qed.

(** C2.  [dek_to_greg] does not go through [year_day_on_deka_date]: on
    10/10/2017 Dekatrian, whose ordinal is 263, the walk along the month
    lengths gives 20 September, and the function returns 10 October. *)
Theorem dek_to_greg_not_by_deka_ordinal :
  valid_dek 10 10 2017 = true /\
  year_day_on_deka_date 10 10 2017 = 263 /\
  Reference.dek_to_greg_by_deka_ordinal 10 10 2017 = Ok (20, 9, 2017) /\
  dek_to_greg 10 10 2017 = Ok (10, 10, 2017).
Proof. repeat split. Qed.

(** ** The walk along the month lengths, and the round trip as designed

    [greg_to_dek] is the inverse of the conversion that goes through
    [year_day_on_deka_date]; [dek_to_greg], which takes the Gregorian ordinal
    of its Dekatrian argument, hands that argument back. *)

Section Walk.

Ltac walk_step :=
  cbn [for_months Py.enumerate];
  match goal with
  | |- (if ?a >? ?b then _ else _) = _ =>
      destruct (Z.gtb_spec a b); [try lia | try lia]
  end.

(** The walk finds the date whose ordinal it is given. *)
Lemma walk_inverts_ordinal day month year :
  valid_greg day month year = true ->
  for_months (Py.enumerate (gregorian_calendar_months year) 1)
             (days_before month year + day) None
  = (day, Some month).
Proof.
  intros Hvalid. apply valid_greg_inv in Hvalid as [Hmonth Hday].
  unfold days_before, month_length, gregorian_calendar_months in *.
  cbv zeta in *.
  apply month_cases in Hmonth.
  destruct (Py.isleap year);
    repeat (destruct Hmonth as [-> | Hmonth]); try subst month;
    eval_to_nat; cbn [firstn nth fold_right zsum Py.int_of_bool] in *;
    repeat walk_step; (f_equal; lia).
Qed.

Lemma dek_to_greg_echo day month year :
  valid_greg day month year = true ->
  dek_to_greg day month year = Ok (day, month, year).
Proof.
  intros Hvalid. unfold dek_to_greg.
  rewrite year_day_on_greg_date_run.
  pose proof (valid_greg_inv _ _ _ Hvalid) as [Hmonth _].
  replace (month <=? 13) with true by lia. cbn [bind].
  now rewrite walk_inverts_ordinal.
Qed.

Ltac date_goal :=
  eval_to_nat; cbn [firstn nth fold_right zsum];
  split; [rewrite !andb_true_iff, !Z.leb_le; lia | lia].

Ltac pick_date n :=
  first
    [ exists n, 1; date_goal
    | exists (n - 31), 2; date_goal
    | exists (n - 59), 3; date_goal | exists (n - 60), 3; date_goal
    | exists (n - 90), 4; date_goal | exists (n - 91), 4; date_goal
    | exists (n - 120), 5; date_goal | exists (n - 121), 5; date_goal
    | exists (n - 151), 6; date_goal | exists (n - 152), 6; date_goal
    | exists (n - 181), 7; date_goal | exists (n - 182), 7; date_goal
    | exists (n - 212), 8; date_goal | exists (n - 213), 8; date_goal
    | exists (n - 243), 9; date_goal | exists (n - 244), 9; date_goal
    | exists (n - 273), 10; date_goal | exists (n - 274), 10; date_goal
    | exists (n - 304), 11; date_goal | exists (n - 305), 11; date_goal
    | exists (n - 334), 12; date_goal | exists (n - 335), 12; date_goal ].

(** Every ordinal of the year is the ordinal of a valid Gregorian date. *)
Lemma ordinal_has_date n year :
  1 <= n <= 365 + Py.int_of_bool (Py.isleap year) ->
  exists day month,
    valid_greg day month year = true /\ days_before month year + day = n.
Proof.
  intros Hn.
  unfold valid_greg, month_length, days_before, gregorian_calendar_months.
  cbv zeta.
  destruct (Py.isleap year); cbn [Py.int_of_bool] in *.
  - assert (Hsplit :
        n <= 31 \/ 31 < n <= 60 \/ 60 < n <= 91 \/ 91 < n <= 121 \/
        121 < n <= 152 \/ 152 < n <= 182 \/ 182 < n <= 213 \/
        213 < n <= 244 \/ 244 < n <= 274 \/ 274 < n <= 305 \/
        305 < n <= 335 \/ 335 < n) by lia.
    repeat (destruct Hsplit as [Hsplit | Hsplit]; [pick_date n|]).
    pick_date n.
  - assert (Hsplit :
        n <= 31 \/ 31 < n <= 59 \/ 59 < n <= 90 \/ 90 < n <= 120 \/
        120 < n <= 151 \/ 151 < n <= 181 \/ 181 < n <= 212 \/
        212 < n <= 243 \/ 243 < n <= 273 \/ 273 < n <= 304 \/
        304 < n <= 334 \/ 334 < n) by lia.
    repeat (destruct Hsplit as [Hsplit | Hsplit]; [pick_date n|]).
    pick_date n.
Qed.

(** The Dekatrian ordinal of what [greg_to_dek] returns is the Gregorian
    ordinal it started from. *)
Lemma greg_to_dek_keeps_ordinal day month year :
  valid_greg day month year = true ->
  exists dek_day dek_month,
    greg_to_dek day month year = Ok (dek_day, dek_month, year) /\
    year_day_on_deka_date dek_day dek_month year
    = days_before month year + day.
Proof.
  intros Hvalid.
  pose proof (valid_greg_ordinal _ _ _ Hvalid) as [Hrange Hday].
  apply valid_greg_inv in Hvalid as [Hmonth _].
  cbv zeta in Hrange, Hday.
  pose proof (int_of_bool_range (Py.isleap year)) as Hleap.
  rewrite greg_to_dek_run by lia.
  set (year_day := days_before month year + day) in *.
  set (leap := Py.int_of_bool (Py.isleap year)) in *.
  destruct (Z.gtb_spec year_day (1 + leap)) as [Hgt | Hle].
  - eexists _, _. split; [reflexivity|].
    unfold year_day_on_deka_date. fold leap.
    pose proof (Z.div_pos (year_day - (1 + leap) - 1) 28 ltac:(lia) ltac:(lia)).
    replace (_ =? 0) with false by lia.
    pose proof (Z.div_mod (year_day - (1 + leap) - 1) 28 ltac:(lia)).
    lia.
  - exists day, 0. split; [reflexivity|].
    unfold year_day_on_deka_date. cbn. auto.
Qed.

(** Gregorian to Dekatrian and back, through the Dekatrian ordinal. *)
Theorem designed_round_trip_greg day month year :
  valid_greg day month year = true ->
  exists dek_day dek_month,
    greg_to_dek day month year = Ok (dek_day, dek_month, year) /\
    Reference.dek_to_greg_by_deka_ordinal dek_day dek_month year
    = Ok (day, month, year).
Proof.
  intros Hvalid.
  destruct (greg_to_dek_keeps_ordinal _ _ _ Hvalid)
    as (dek_day & dek_month & Hrun & Hord).
  exists dek_day, dek_month. split; [assumption|].
  unfold Reference.dek_to_greg_by_deka_ordinal. cbv zeta.
  now rewrite Hord, walk_inverts_ordinal.
Qed.

Lemma valid_dek_ordinal dek_day dek_month year :
  valid_dek dek_day dek_month year = true ->
  1 <= year_day_on_deka_date dek_day dek_month year
    <= 365 + Py.int_of_bool (Py.isleap year).
Proof.
  unfold valid_dek, year_day_on_deka_date.
  destruct (Z.eqb_spec dek_month 0) as [-> | Hne].
  - destruct (Py.isleap year); cbn [Py.int_of_bool];
      rewrite ?andb_true_r, ?andb_false_r, ?orb_false_r, ?orb_true_iff;
      lia.
  - rewrite !andb_true_iff, !Z.leb_le.
    pose proof (int_of_bool_range (Py.isleap year)). lia.
Qed.

(** Dekatrian to Gregorian through the Dekatrian ordinal, and back. *)
Theorem designed_round_trip_dek dek_day dek_month year :
  valid_dek dek_day dek_month year = true ->
  exists day month,
    Reference.dek_to_greg_by_deka_ordinal dek_day dek_month year
    = Ok (day, month, year) /\
    valid_greg day month year = true /\
    greg_to_dek day month year = Ok (dek_day, dek_month, year).
Proof.
  intros Hvalid.
  pose proof (valid_dek_ordinal _ _ _ Hvalid) as Hrange.
  destruct (ordinal_has_date _ _ Hrange) as (day & month & Hgreg & Hord).
  exists day, month.
  unfold Reference.dek_to_greg_by_deka_ordinal. cbv zeta.
  rewrite <- Hord, walk_inverts_ordinal by assumption.
  split; [reflexivity|]. split; [assumption|].
  pose proof (valid_greg_ordinal _ _ _ Hgreg) as [_ Hday].
  pose proof (valid_greg_inv _ _ _ Hgreg) as [Hmonth _].
  cbv zeta in Hday.
  pose proof (int_of_bool_range (Py.isleap year)) as Hleap.
  rewrite greg_to_dek_run by lia. rewrite Hord in *.
  revert Hvalid Hrange Hday. unfold valid_dek, year_day_on_deka_date.
  set (leap := Py.int_of_bool (Py.isleap year)) in *.
  destruct (Z.eqb_spec dek_month 0) as [-> | Hne]; intros Hvalid Hrange Hday.
  - assert (Hle : dek_day <= 1 + leap).
    { subst leap. destruct (Py.isleap year); cbn [Py.int_of_bool];
        rewrite ?andb_true_r, ?andb_false_r, ?orb_false_r, ?orb_true_iff
          in Hvalid; lia. }
    replace (dek_day >? 1 + leap) with false by lia.
    now rewrite (Hday Hle).
  - rewrite !andb_true_iff, !Z.leb_le in Hvalid.
    replace (_ >? 1 + leap) with true by lia.
    do 3 f_equal; Z.div_mod_to_equations; lia.
Qed.

End Walk.

(** ** Further properties: the day of the year *)

Section OrdinalFacts.

Lemma days_before_first month year : month <= 1 -> days_before month year = 0.
Proof.
  intros Hmonth. unfold days_before.
  now replace (Z.to_nat (month - 1)) with 0%nat by lia.
Qed.

Lemma days_before_december year :
  days_before 12 year = 334 + Py.int_of_bool (Py.isleap year).
Proof.
  unfold days_before, gregorian_calendar_months. cbv zeta.
  eval_to_nat. cbn [firstn fold_right zsum]. lia.
Qed.

Lemma days_before_thirteen year :
  days_before 13 year = 365 + Py.int_of_bool (Py.isleap year).
Proof.
  unfold days_before, gregorian_calendar_months. cbv zeta.
  eval_to_nat. cbn [firstn fold_right zsum]. lia.
Qed.

Lemma year_day_of_valid day month year :
  valid_greg day month year = true ->
  year_day_on_greg_date day month year = Ok (days_before month year + day).
Proof.
  intros Hvalid. apply valid_greg_inv in Hvalid as [Hmonth _].
  rewrite year_day_on_greg_date_run.
  now replace (month <=? 13) with true by lia.
Qed.

(** The ordinal grows with the date: each month starts after the previous
    one has ended. *)
Lemma days_before_order day1 month1 day2 month2 year :
  valid_greg day1 month1 year = true ->
  valid_greg day2 month2 year = true ->
  (month1 < month2 \/ (month1 = month2 /\ day1 < day2) <->
   days_before month1 year + day1 < days_before month2 year + day2).
Proof.
  intros Hv1 Hv2.
  apply valid_greg_inv in Hv1 as [Hm1 Hd1].
  apply valid_greg_inv in Hv2 as [Hm2 Hd2].
  unfold days_before, month_length, gregorian_calendar_months in *.
  cbv zeta in *.
  apply month_cases in Hm1. apply month_cases in Hm2.
  destruct (Py.isleap year);
    repeat (destruct Hm1 as [-> | Hm1]); try subst month1;
    repeat (destruct Hm2 as [-> | Hm2]); try subst month2;
    eval_to_nat; cbn [firstn nth fold_right zsum Py.int_of_bool] in *; lia.
Qed.

End OrdinalFacts.

(** X1.  [year_day_on_greg_date] never validates its month: up to month 1
    (0 and negative months included) the loop does not run and the day comes
    back unchanged; month 13 adds the whole year; any month past 13 reads the
    tuple past its end and raises [IndexError]; no month up to 13 does. *)
Theorem year_day_on_greg_date_outcomes day month year :
  (month <= 1 -> year_day_on_greg_date day month year = Ok day) /\
  (month = 13 ->
   year_day_on_greg_date day month year
   = Ok (365 + Py.int_of_bool (Py.isleap year) + day)) /\
  (13 < month <-> year_day_on_greg_date day month year = Raise IndexError) /\
  (month <= 13 <-> exists n, year_day_on_greg_date day month year = Ok n).
Proof.
  rewrite year_day_on_greg_date_run.
  destruct (Z.leb_spec month 13) as [Hle | Hgt].
  - split; [|split; [|split]].
    + intros H1. now rewrite days_before_first.
    + intros ->. now rewrite days_before_thirteen.
    + split; [lia | discriminate].
    + split; [eauto | trivial].
  - split; [|split; [|split]]; try lia.
    + split; trivial.
    + split; [lia | intros [n Hn]; discriminate].
Qed.

Lemma year_day_on_greg_date_outcomes_witness :
  year_day_on_greg_date 5 (-3) 2017 = Ok 5 /\
  year_day_on_greg_date 5 13 2016 = Ok (365 + 1 + 5) /\
  year_day_on_greg_date 5 14 2017 = Raise IndexError.
Proof.
  split; [|split].
  - apply (proj1 (year_day_on_greg_date_outcomes 5 (-3) 2017)). lia.
  - apply (proj1 (proj2 (year_day_on_greg_date_outcomes 5 13 2016))).
    reflexivity.
  - apply (proj1 (proj2 (proj2 (year_day_on_greg_date_outcomes 5 14 2017)))).
    lia.
Defined.

(** X2.  On a valid Gregorian date [year_day_on_greg_date] returns an ordinal
    from 1 to the length of the year; 1 January is day 1 and 31 December is
    day 365, or 366 in a leap year. *)
Theorem year_day_on_greg_date_range day month year :
  valid_greg day month year = true ->
  (exists n, year_day_on_greg_date day month year = Ok n /\
             1 <= n <= 365 + (if Py.isleap year then 1 else 0)) /\
  year_day_on_greg_date 1 1 year = Ok 1 /\
  year_day_on_greg_date 31 12 year
  = Ok (365 + (if Py.isleap year then 1 else 0)).
Proof.
  intros Hvalid. split; [|split].
  - rewrite (year_day_of_valid _ _ _ Hvalid). eexists. split; [reflexivity|].
    apply (valid_greg_ordinal _ _ _ Hvalid).
  - reflexivity.
  - rewrite year_day_on_greg_date_run. change (12 <=? 13) with true.
    cbv iota. rewrite days_before_december.
    unfold Py.int_of_bool. f_equal. destruct (Py.isleap year); lia.
Qed.

Lemma year_day_on_greg_date_range_witness :
  valid_greg 29 2 2016 = true /\
  (exists n, year_day_on_greg_date 29 2 2016 = Ok n /\
             1 <= n <= 365 + (if Py.isleap 2016 then 1 else 0)) /\
  year_day_on_greg_date 1 1 2016 = Ok 1 /\
  year_day_on_greg_date 31 12 2016
  = Ok (365 + (if Py.isleap 2016 then 1 else 0)).
Proof.
  split; [reflexivity|].
  apply (year_day_on_greg_date_range 29 2 2016). reflexivity.
Defined.

(** X3.  On valid dates of one year [year_day_on_greg_date] keeps the order
    of the calendar: an earlier date has a smaller ordinal, so two different
    dates never share one. *)
Theorem year_day_on_greg_date_order day1 month1 day2 month2 year n1 n2 :
  valid_greg day1 month1 year = true ->
  valid_greg day2 month2 year = true ->
  year_day_on_greg_date day1 month1 year = Ok n1 ->
  year_day_on_greg_date day2 month2 year = Ok n2 ->
  (month1 < month2 \/ (month1 = month2 /\ day1 < day2) <-> n1 < n2) /\
  (n1 = n2 -> day1 = day2 /\ month1 = month2).
Proof.
  intros Hv1 Hv2 Hn1 Hn2.
  rewrite (year_day_of_valid _ _ _ Hv1) in Hn1.
  rewrite (year_day_of_valid _ _ _ Hv2) in Hn2.
  injection Hn1 as <-. injection Hn2 as <-.
  pose proof (days_before_order _ _ _ _ _ Hv1 Hv2) as H12.
  pose proof (days_before_order _ _ _ _ _ Hv2 Hv1) as H21.
  split; [exact H12 | lia].
Qed.

Lemma year_day_on_greg_date_order_witness :
  (2 < 3 \/ (2 = 3 /\ 29 < 1) <-> 60 < 61) /\
  (60 = 61 -> 29 = 1 /\ 2 = 3).
Proof.
  apply (year_day_on_greg_date_order 29 2 1 3 2016 60 61); reflexivity.
Defined.

(** X4.  Every ordinal from 1 to the length of the year is the
    [year_day_on_greg_date] of exactly one valid date of that year. *)
Theorem year_day_on_greg_date_onto n year :
  1 <= n <= 365 + (if Py.isleap year then 1 else 0) ->
  exists day month,
    valid_greg day month year = true /\
    year_day_on_greg_date day month year = Ok n /\
    forall day' month',
      valid_greg day' month' year = true ->
      year_day_on_greg_date day' month' year = Ok n ->
      day' = day /\ month' = month.
Proof.
  intros Hn.
  destruct (ordinal_has_date n year) as (day & month & Hvalid & Hord).
  { unfold Py.int_of_bool. exact Hn. }
  exists day, month. split; [assumption|]. split.
  - rewrite (year_day_of_valid _ _ _ Hvalid). now rewrite Hord.
  - intros day' month' Hvalid' Hord'.
    rewrite (year_day_of_valid _ _ _ Hvalid') in Hord'.
    injection Hord' as Hord'.
    pose proof (walk_inverts_ordinal _ _ _ Hvalid) as Hwalk.
    pose proof (walk_inverts_ordinal _ _ _ Hvalid') as Hwalk'.
    rewrite Hord in Hwalk. rewrite Hord' in Hwalk'.
    rewrite Hwalk in Hwalk'. injection Hwalk' as -> ->. split; reflexivity.
Qed.

Lemma year_day_on_greg_date_onto_witness :
  1 <= 366 <= 365 + (if Py.isleap 2016 then 1 else 0) /\
  exists day month,
    valid_greg day month 2016 = true /\
    year_day_on_greg_date day month 2016 = Ok 366 /\
    forall day' month',
      valid_greg day' month' 2016 = true ->
      year_day_on_greg_date day' month' 2016 = Ok 366 ->
      day' = day /\ month' = month.
Proof.
  split; [simpl; lia|].
  apply (year_day_on_greg_date_onto 366 2016). simpl. lia.
Defined.

(** ** Further properties: [dek_to_greg] on every ordinal *)

Section WalkEnds.

Ltac walk_on :=
  cbn [for_months Py.enumerate];
  match goal with
  | |- (if ?a >? ?b then _ else _) = _ =>
      destruct (Z.gtb_spec a b); [try lia | try lia]
  end.

(** An ordinal of at most 31, zero and negative ones included, stops the walk
    in January. *)
Lemma walk_low n year :
  n <= 31 ->
  for_months (Py.enumerate (gregorian_calendar_months year) 1) n None
  = (n, Some 1).
Proof.
  intros Hn. unfold gregorian_calendar_months. cbv zeta.
  walk_on. reflexivity.
Qed.

(** An ordinal beyond the year runs the walk to the end of the tuple, December
    included. *)
Lemma walk_high n year :
  365 + Py.int_of_bool (Py.isleap year) < n ->
  for_months (Py.enumerate (gregorian_calendar_months year) 1) n None
  = (n - (365 + Py.int_of_bool (Py.isleap year)), Some 12).
Proof.
  intros Hn. unfold gregorian_calendar_months. cbv zeta.
  destruct (Py.isleap year); cbn [Py.int_of_bool] in *;
    repeat walk_on; cbn [for_months]; f_equal; lia.
Qed.

Lemma dek_to_greg_walk day month year :
  month <= 13 ->
  dek_to_greg day month year =
    let '(year_day, month') :=
      for_months (Py.enumerate (gregorian_calendar_months year) 1)
                 (days_before month year + day) None in
    match month' with
    | Some month' => Ok (year_day, month', year)
    | None => Raise UnboundLocalError
    end.
Proof.
  intros Hmonth. unfold dek_to_greg.
  rewrite year_day_on_greg_date_run.
  now replace (month <=? 13) with true by lia.
Qed.

Lemma year_day_ok_inv day month year n :
  year_day_on_greg_date day month year = Ok n ->
  month <= 13 /\ n = days_before month year + day.
Proof.
  rewrite year_day_on_greg_date_run.
  destruct (Z.leb_spec month 13); [|discriminate].
  intros [= <-]. split; [assumption | reflexivity].
Qed.

(** Every month has at least 28 days. *)
Lemma valid_greg_short_day day month year :
  1 <= month <= 12 -> 1 <= day <= 28 -> valid_greg day month year = true.
Proof.
  intros Hmonth Hday.
  unfold valid_greg, month_length, gregorian_calendar_months. cbv zeta.
  apply month_cases in Hmonth.
  destruct (Py.isleap year);
    repeat (destruct Hmonth as [-> | Hmonth]); try subst month;
    eval_to_nat; cbn [nth Py.int_of_bool];
    rewrite !andb_true_iff, !Z.leb_le; lia.
Qed.

End WalkEnds.

(** X5.  Whenever the ordinal that [dek_to_greg] computes is at most the
    length of the year, the date it returns has that same ordinal and is a
    fixed point of [dek_to_greg]; when the ordinal is at least 1 the returned
    date is a valid Gregorian date.  So an overlong day such as 45 January is
    carried into the following months. *)
Theorem dek_to_greg_normalises day month year n :
  year_day_on_greg_date day month year = Ok n ->
  n <= 365 + (if Py.isleap year then 1 else 0) ->
  exists day' month',
    dek_to_greg day month year = Ok (day', month', year) /\
    year_day_on_greg_date day' month' year = Ok n /\
    dek_to_greg day' month' year = Ok (day', month', year) /\
    (1 <= n -> valid_greg day' month' year = true).
Proof.
  intros Hn Hle. apply year_day_ok_inv in Hn as [Hmonth ->].
  rewrite (dek_to_greg_walk _ _ _ Hmonth).
  set (n := days_before month year + day) in *.
  destruct (Z.le_gt_cases 1 n) as [Hpos | Hneg].
  - destruct (ordinal_has_date n year) as (day' & month' & Hvalid & Hord).
    { unfold Py.int_of_bool. lia. }
    exists day', month'.
    rewrite <- Hord, (walk_inverts_ordinal _ _ _ Hvalid).
    rewrite (year_day_of_valid _ _ _ Hvalid), (dek_to_greg_echo _ _ _ Hvalid).
    repeat split; trivial.
  - exists n, 1. rewrite walk_low by lia.
    rewrite (dek_to_greg_walk n 1 year) by lia.
    rewrite year_day_on_greg_date_run. change (1 <=? 13) with true. cbv iota.
    rewrite days_before_first by lia. rewrite !Z.add_0_l.
    rewrite walk_low by lia.
    repeat split; trivial. lia.
Qed.

Lemma dek_to_greg_normalises_witness :
  exists day' month',
    dek_to_greg 45 1 2017 = Ok (day', month', 2017) /\
    year_day_on_greg_date day' month' 2017 = Ok 45 /\
    dek_to_greg day' month' 2017 = Ok (day', month', 2017) /\
    (1 <= 45 -> valid_greg day' month' 2017 = true).
Proof.
  apply (dek_to_greg_normalises 45 1 2017 45); [reflexivity | simpl; lia].
Defined.

(** X6.  What [dek_to_greg] does to a valid Dekatrian date: the day is kept,
    and the month is kept as well when it is 1 to 12; the intercalary month 0
    becomes January and month 13 becomes December. *)
Theorem dek_to_greg_on_dekatrian_dates dek_day dek_month dek_year :
  valid_dek dek_day dek_month dek_year = true ->
  dek_to_greg dek_day dek_month dek_year
  = Ok (dek_day, Z.max 1 (Z.min dek_month 12), dek_year).
Proof.
  unfold valid_dek.
  destruct (Z.eqb_spec dek_month 0) as [-> | Hne]; intros Hvalid.
  - assert (Hday : dek_day = 1 \/ dek_day = 2).
    { apply orb_true_iff in Hvalid as [H | H];
        [| apply andb_true_iff in H as [H _]]; apply Z.eqb_eq in H; lia. }
    rewrite dek_to_greg_walk by lia.
    rewrite days_before_first, Z.add_0_l by lia.
    rewrite walk_low by lia. reflexivity.
  - rewrite !andb_true_iff, !Z.leb_le in Hvalid.
    destruct (Z.eq_dec dek_month 13) as [-> | Hne13].
    + rewrite dek_to_greg_walk by lia.
      rewrite days_before_thirteen, walk_high by lia.
      f_equal. f_equal. f_equal. lia.
    + rewrite dek_to_greg_echo by (apply valid_greg_short_day; lia).
      f_equal. f_equal. f_equal. lia.
Qed.

Lemma dek_to_greg_on_dekatrian_dates_witness :
  valid_dek 10 13 2017 = true /\
  dek_to_greg 10 13 2017 = Ok (10, Z.max 1 (Z.min 13 12), 2017).
Proof.
  split; [reflexivity|].
  apply (dek_to_greg_on_dekatrian_dates 10 13 2017). reflexivity.
Defined.

(** X7.  When the ordinal that [dek_to_greg] computes exceeds the length of
    the year, no error is raised: the whole year is subtracted and the rest is
    returned as a day of December, a date whose own ordinal is 31 less than
    the one that was computed. *)
Theorem dek_to_greg_beyond_year day month year n :
  year_day_on_greg_date day month year = Ok n ->
  365 + (if Py.isleap year then 1 else 0) < n ->
  dek_to_greg day month year
  = Ok (n - (365 + (if Py.isleap year then 1 else 0)), 12, year) /\
  year_day_on_greg_date (n - (365 + (if Py.isleap year then 1 else 0))) 12 year
  = Ok (n - 31).
Proof.
  intros Hn Hgt. apply year_day_ok_inv in Hn as [Hmonth ->].
  rewrite (dek_to_greg_walk _ _ _ Hmonth).
  change (if Py.isleap year then 1 else 0)
    with (Py.int_of_bool (Py.isleap year)) in *.
  rewrite walk_high by lia. split; [reflexivity|].
  rewrite year_day_on_greg_date_run. change (12 <=? 13) with true. cbv iota.
  rewrite days_before_december. f_equal. lia.
Qed.

Lemma dek_to_greg_beyond_year_witness :
  dek_to_greg 40 12 2017
  = Ok (374 - (365 + (if Py.isleap 2017 then 1 else 0)), 12, 2017) /\
  year_day_on_greg_date (374 - (365 + (if Py.isleap 2017 then 1 else 0))) 12 2017
  = Ok (374 - 31).
Proof.
  apply (dek_to_greg_beyond_year 40 12 2017 374); [reflexivity | simpl; lia].
Defined.

(** ** Further properties: [greg_to_dek] and the Dekatrian ordinal *)

Section DekatrianOrdinal.

Lemma valid_dek_inv dek_day dek_month year :
  valid_dek dek_day dek_month year = true ->
  (dek_month = 0 /\ 1 <= dek_day <= 1 + Py.int_of_bool (Py.isleap year)) \/
  (1 <= dek_month <= 13 /\ 1 <= dek_day <= 28).
Proof.
  unfold valid_dek.
  destruct (Z.eqb_spec dek_month 0) as [-> | Hne]; intros Hvalid.
  - left. split; [reflexivity|].
    destruct (Py.isleap year); cbn [Py.int_of_bool];
      rewrite ?andb_true_r, ?andb_false_r, ?orb_false_r, ?orb_true_iff
        in Hvalid; lia.
  - right. rewrite !andb_true_iff, !Z.leb_le in Hvalid. lia.
Qed.

(** Valid Dekatrian dates with the same ordinal are the same date. *)
Lemma deka_ordinal_injective day1 month1 day2 month2 year :
  valid_dek day1 month1 year = true ->
  valid_dek day2 month2 year = true ->
  year_day_on_deka_date day1 month1 year
  = year_day_on_deka_date day2 month2 year ->
  day1 = day2 /\ month1 = month2.
Proof.
  intros Hv1 Hv2.
  apply valid_dek_inv in Hv1. apply valid_dek_inv in Hv2.
  pose proof (int_of_bool_range (Py.isleap year)) as Hleap.
  unfold year_day_on_deka_date.
  destruct Hv1 as [[-> Hd1] | [Hm1 Hd1]], Hv2 as [[-> Hd2] | [Hm2 Hd2]].
  - cbn. lia.
  - replace (month2 =? 0) with false by lia. cbn. lia.
  - replace (month1 =? 0) with false by lia. cbn. lia.
  - replace (month1 =? 0) with false by lia.
    replace (month2 =? 0) with false by lia. lia.
Qed.

(** The preimage of a valid Dekatrian date under [greg_to_dek]. *)
Lemma greg_to_dek_reaches dek_day dek_month year :
  valid_dek dek_day dek_month year = true ->
  exists day month,
    valid_greg day month year = true /\
    days_before month year + day
    = year_day_on_deka_date dek_day dek_month year /\
    greg_to_dek day month year = Ok (dek_day, dek_month, year).
Proof.
  intros Hvalid.
  destruct (designed_round_trip_dek _ _ _ Hvalid)
    as (day & month & Hwalk & Hgreg & Hrun).
  exists day, month. split; [assumption|]. split; [|assumption].
  destruct (greg_to_dek_keeps_ordinal _ _ _ Hgreg) as (d & m & Hrun' & Hord).
  rewrite Hrun in Hrun'. injection Hrun' as <- <-. now rewrite Hord.
Qed.

End DekatrianOrdinal.

(** X8.  Between valid dates of one year, [greg_to_dek] returns a Dekatrian
    date exactly when that date has the [year_day_on_deka_date] that the
    Gregorian date has as [year_day_on_greg_date]: the conversion keeps the
    day of the year. *)
Theorem greg_to_dek_iff_same_ordinal day month dek_day dek_month year :
  valid_greg day month year = true ->
  valid_dek dek_day dek_month year = true ->
  (greg_to_dek day month year = Ok (dek_day, dek_month, year) <->
   year_day_on_greg_date day month year
   = Ok (year_day_on_deka_date dek_day dek_month year)).
Proof.
  intros Hgreg Hdek. rewrite (year_day_of_valid _ _ _ Hgreg). split.
  - intros Hrun.
    destruct (greg_to_dek_keeps_ordinal _ _ _ Hgreg) as (d & m & Hrun' & Hord).
    rewrite Hrun in Hrun'. injection Hrun' as <- <-. now rewrite Hord.
  - intros [= Hord].
    destruct (greg_to_dek_reaches _ _ _ Hdek)
      as (day' & month' & Hgreg' & Hord' & Hrun).
    pose proof (walk_inverts_ordinal _ _ _ Hgreg) as Hwalk.
    pose proof (walk_inverts_ordinal _ _ _ Hgreg') as Hwalk'.
    rewrite Hord in Hwalk. rewrite Hord' in Hwalk'.
    rewrite Hwalk in Hwalk'. injection Hwalk' as -> ->. exact Hrun.
Qed.

Lemma greg_to_dek_iff_same_ordinal_witness :
  greg_to_dek 20 9 2017 = Ok (10, 10, 2017) <->
  year_day_on_greg_date 20 9 2017 = Ok (year_day_on_deka_date 10 10 2017).
Proof.
  apply (greg_to_dek_iff_same_ordinal 20 9 10 10 2017); reflexivity.
Defined.

(** X9.  Every valid Dekatrian date is what [greg_to_dek] returns for exactly
    one valid Gregorian date of the same year. *)
Theorem greg_to_dek_onto dek_day dek_month year :
  valid_dek dek_day dek_month year = true ->
  exists day month,
    valid_greg day month year = true /\
    greg_to_dek day month year = Ok (dek_day, dek_month, year) /\
    forall day' month',
      valid_greg day' month' year = true ->
      greg_to_dek day' month' year = Ok (dek_day, dek_month, year) ->
      day' = day /\ month' = month.
Proof.
  intros Hdek.
  destruct (greg_to_dek_reaches _ _ _ Hdek)
    as (day & month & Hgreg & Hord & Hrun).
  exists day, month. split; [assumption|]. split; [assumption|].
  intros day' month' Hgreg' Hrun'.
  destruct (greg_to_dek_keeps_ordinal _ _ _ Hgreg') as (d & m & Hrun2 & Hord').
  rewrite Hrun' in Hrun2. injection Hrun2 as <- <-.
  pose proof (walk_inverts_ordinal _ _ _ Hgreg) as Hwalk.
  pose proof (walk_inverts_ordinal _ _ _ Hgreg') as Hwalk'.
  rewrite Hord in Hwalk. rewrite <- Hord' in Hwalk'.
  rewrite Hwalk in Hwalk'. injection Hwalk' as -> ->. split; reflexivity.
Qed.

Lemma greg_to_dek_onto_witness :
  valid_dek 2 0 2016 = true /\
  exists day month,
    valid_greg day month 2016 = true /\
    greg_to_dek day month 2016 = Ok (2, 0, 2016) /\
    forall day' month',
      valid_greg day' month' 2016 = true ->
      greg_to_dek day' month' 2016 = Ok (2, 0, 2016) ->
      day' = day /\ month' = month.
Proof.
  split; [reflexivity|].
  apply (greg_to_dek_onto 2 0 2016). reflexivity.
Defined.

(** X10.  The ends of every year: 1 January is the intercalary day 1/0,
    2 January of a leap year is the intercalary day 2/0, the day after the
    intercalary days is 1/1, and 31 December is 28/13. *)
Theorem greg_to_dek_year_ends year :
  greg_to_dek 1 1 year = Ok (1, 0, year) /\
  (Py.isleap year = true -> greg_to_dek 2 1 year = Ok (2, 0, year)) /\
  greg_to_dek (2 + (if Py.isleap year then 1 else 0)) 1 year
  = Ok (1, 1, year) /\
  greg_to_dek 31 12 year = Ok (28, 13, year).
Proof.
  rewrite !greg_to_dek_run;
    rewrite ?days_before_first, ?days_before_december by lia;
    destruct (Py.isleap year); cbn [Py.int_of_bool]; try (cbn; lia).
  all: repeat split; try discriminate; reflexivity.
Qed.

Lemma greg_to_dek_year_ends_witness :
  greg_to_dek 2 1 2016 = Ok (2, 0, 2016).
Proof.
  apply (proj1 (proj2 (greg_to_dek_year_ends 2016))). reflexivity.
Defined.

(** X11.  [greg_to_dek] in closed form, for every input whose ordinal is
    below 2^53: there the float division is exact, so past the intercalary
    days the month is the floor quotient by 28 plus one and the day the
    remainder plus one.  At or below [1 + leap] the input day is returned
    with month 0, whatever the month and even when the day is not positive. *)
Theorem greg_to_dek_closed_form day month year n :
  year_day_on_greg_date day month year = Ok n ->
  n < 2 ^ 53 ->
  let leap := if Py.isleap year then 1 else 0 in
  greg_to_dek day month year =
    if n <=? 1 + leap then Ok (day, 0, year)
    else Ok ((n - 2 - leap) mod 28 + 1, (n - 2 - leap) / 28 + 1, year).
Proof.
  intros Hn Hsmall leap. apply year_day_ok_inv in Hn as [Hmonth ->].
  rewrite greg_to_dek_run by assumption.
  change (Py.int_of_bool (Py.isleap year)) with leap.
  set (n := days_before month year + day) in *.
  destruct (Z.gtb_spec n (1 + leap)), (Z.leb_spec n (1 + leap)); try lia;
    [|reflexivity].
  replace (n - (1 + leap) - 1) with (n - 2 - leap) by lia. reflexivity.
Qed.

Lemma greg_to_dek_closed_form_witness :
  greg_to_dek (-30) 2 2017 =
    if 1 <=? 1 + (if Py.isleap 2017 then 1 else 0) then Ok (-30, 0, 2017)
    else Ok ((1 - 2 - (if Py.isleap 2017 then 1 else 0)) mod 28 + 1,
             (1 - 2 - (if Py.isleap 2017 then 1 else 0)) / 28 + 1, 2017).
Proof.
  apply (greg_to_dek_closed_form (-30) 2 2017 1); [reflexivity | lia].
Defined.

(** X12.  On valid Dekatrian dates [year_day_on_deka_date] stays between 1
    and the length of the year, two different dates never share an ordinal,
    and every ordinal in that range is reached. *)
Theorem year_day_on_deka_date_bijective year :
  (forall day month,
      valid_dek day month year = true ->
      1 <= year_day_on_deka_date day month year
        <= 365 + (if Py.isleap year then 1 else 0)) /\
  (forall day1 month1 day2 month2,
      valid_dek day1 month1 year = true ->
      valid_dek day2 month2 year = true ->
      year_day_on_deka_date day1 month1 year
      = year_day_on_deka_date day2 month2 year ->
      day1 = day2 /\ month1 = month2) /\
  (forall n,
      1 <= n <= 365 + (if Py.isleap year then 1 else 0) ->
      exists day month,
        valid_dek day month year = true /\
        year_day_on_deka_date day month year = n).
Proof.
  split; [|split].
  - intros day month Hvalid. apply (valid_dek_ordinal _ _ _ Hvalid).
  - intros day1 month1 day2 month2. apply deka_ordinal_injective.
  - intros n Hn. unfold valid_dek, year_day_on_deka_date.
    destruct (Py.isleap year) eqn:Hleap; cbn [Py.int_of_bool].
    + destruct (Z.le_gt_cases n 2).
      * exists n, 0. cbn. split; [|reflexivity].
        rewrite andb_true_r, orb_true_iff, !Z.eqb_eq. lia.
      * exists ((n - 3) mod 28 + 1), ((n - 3) / 28 + 1).
        replace ((n - 3) / 28 + 1 =? 0) with false
          by (symmetry; apply Z.eqb_neq; Z.div_mod_to_equations; lia).
        split; [|Z.div_mod_to_equations; lia].
        rewrite !andb_true_iff, !Z.leb_le. Z.div_mod_to_equations. lia.
    + destruct (Z.le_gt_cases n 1).
      * exists n, 0. cbn. split; [|reflexivity].
        rewrite andb_false_r, orb_false_r, Z.eqb_eq. lia.
      * exists ((n - 2) mod 28 + 1), ((n - 2) / 28 + 1).
        replace ((n - 2) / 28 + 1 =? 0) with false
          by (symmetry; apply Z.eqb_neq; Z.div_mod_to_equations; lia).
        split; [|Z.div_mod_to_equations; lia].
        rewrite !andb_true_iff, !Z.leb_le. Z.div_mod_to_equations. lia.
Qed.

Lemma year_day_on_deka_date_bijective_witness :
  1 <= year_day_on_deka_date 28 13 2016
    <= 365 + (if Py.isleap 2016 then 1 else 0).
Proof.
  apply (proj1 (year_day_on_deka_date_bijective 2016) 28 13). reflexivity.
Defined.

(** ** Further properties: weekdays *)

Section WeekdayFacts.

Lemma week_day_on_first_auroran_range year :
  1 <= week_day_on_first_auroran year <= 7.
Proof.
  unfold week_day_on_first_auroran.
  match goal with
  | |- 1 <= ?a mod 7 + 1 <= 7 => pose proof (Z.mod_pos_bound a 7); lia
  end.
Qed.

(** The reference count of days before a month agrees with the module's
    tuple. *)
Lemma days_before_month_table month year :
  1 <= month <= 12 ->
  Reference.days_before_month month year = days_before month year.
Proof.
  intros Hmonth.
  unfold Reference.days_before_month, days_before, gregorian_calendar_months.
  cbv zeta. apply month_cases in Hmonth.
  destruct (Py.isleap year);
    repeat (destruct Hmonth as [-> | Hmonth]); try subst month;
    vm_compute; reflexivity.
Qed.

Lemma reference_weekday_of_valid day month year :
  valid_greg day month year = true ->
  Reference.weekday day month year
  = (Reference.days_before_year year + (days_before month year + day)) mod 7
    + 1.
Proof.
  intros Hvalid. apply valid_greg_inv in Hvalid as [Hmonth _].
  unfold Reference.weekday, Reference.day_number.
  rewrite days_before_month_table by assumption.
  now rewrite Z.add_assoc.
Qed.

(** The first Auroran against the day count, in both readings. *)
Lemma first_auroran_by_day_count year :
  week_day_on_first_auroran year
  = (Reference.days_before_year year
     + (2 + Py.int_of_bool (Py.isleap year))) mod 7 + 1
  /\ week_day_on_first_auroran year
     = (Reference.days_before_year (year + 1) + 1) mod 7 + 1.
Proof.
  pose proof (auroran_weekday_check_all year) as Hcheck.
  unfold auroran_weekday_check in Hcheck.
  apply andb_true_iff in Hcheck as [Hauroran Hnext].
  apply Z.eqb_eq in Hauroran, Hnext.
  rewrite Hauroran at 1. rewrite Hnext.
  unfold Reference.weekday, Reference.day_number, Reference.days_before_month,
    year_day_on_deka_date.
  change (1 <=? 2) with true. change (1 =? 0) with false. cbv iota.
  change ((367 * 1 - 362) / 12 + 0) with 0.
  split; f_equal; f_equal; lia.
Qed.

(** A valid date with ordinal 1 is 1 January. *)
Lemma first_ordinal_is_january_first day month year :
  valid_greg day month year = true ->
  days_before month year + day <= 1 ->
  day = 1 /\ month = 1.
Proof.
  intros Hvalid Hle.
  assert (Hfirst : valid_greg 1 1 year = true) by reflexivity.
  pose proof (days_before_order 1 1 day month year Hfirst Hvalid) as Horder.
  rewrite (days_before_first 1) in Horder by lia.
  apply valid_greg_inv in Hvalid as [Hmonth Hday]. lia.
Qed.

End WeekdayFacts.

(** X13.  Converting a valid Gregorian date with [greg_to_dek] and asking
    [dek_to_week] for the weekday of the result gives the weekday of the
    Gregorian date in the reference day count, for every date except
    1 January of a common year. *)
Theorem dek_to_week_of_greg_to_dek day month year :
  valid_greg day month year = true ->
  Py.isleap year = true \/ month <> 1 \/ day <> 1 ->
  exists dek_day dek_month,
    greg_to_dek day month year = Ok (dek_day, dek_month, year) /\
    dek_to_week dek_day dek_month year = Reference.weekday day month year.
Proof.
  intros Hvalid Hnot.
  rewrite (reference_weekday_of_valid _ _ _ Hvalid).
  pose proof (valid_greg_ordinal _ _ _ Hvalid) as [Hrange Hday].
  pose proof (first_ordinal_is_january_first _ _ _ Hvalid) as Hfirst.
  pose proof (valid_greg_inv _ _ _ Hvalid) as [Hmonth _].
  pose proof (int_of_bool_range (Py.isleap year)) as Hleap.
  cbv zeta in Hrange, Hday.
  rewrite greg_to_dek_run by lia.
  destruct (first_auroran_by_day_count year) as [HW _].
  set (n := days_before month year + day) in *.
  set (D := Reference.days_before_year year) in *.
  destruct (Z.gtb_spec n (1 + Py.int_of_bool (Py.isleap year)))
    as [Hgt | Hle].
  - eexists _, _. split; [reflexivity|].
    unfold dek_to_week, dekatrian_week. rewrite HW.
    set (leap := Py.int_of_bool (Py.isleap year)) in *.
    assert (Hm : (n - (1 + leap) - 1) / 28 + 1 <> 0)
      by (Z.div_mod_to_equations; lia).
    apply Z.eqb_neq in Hm. rewrite Hm.
    f_equal. Z.div_mod_to_equations. lia.
  - exists day, 0. split; [reflexivity|].
    specialize (Hday Hle). rewrite Hday.
    unfold dek_to_week, dekatrian_week. rewrite HW.
    change (0 =? 0) with true. cbv iota.
    destruct (Py.isleap year); cbn [Py.int_of_bool] in *.
    + f_equal. Z.div_mod_to_equations. lia.
    + destruct Hnot as [Hnot | Hnot]; [discriminate|].
      specialize (Hfirst ltac:(lia)). lia.
Qed.

Lemma dek_to_week_of_greg_to_dek_witness :
  valid_greg 3 11 2026 = true /\
  exists dek_day dek_month,
    greg_to_dek 3 11 2026 = Ok (dek_day, dek_month, 2026) /\
    dek_to_week dek_day dek_month 2026 = Reference.weekday 3 11 2026.
Proof.
  split; [reflexivity|].
  apply (dek_to_week_of_greg_to_dek 3 11 2026); [reflexivity|].
  right. left. discriminate.
Defined.

(** X14.  1 January of a common year is the exception: [greg_to_dek] makes
    it the intercalary day 1/0, and [dek_to_week] answers the weekday before
    the one it falls on. *)
Theorem dek_to_week_achronian_common_year year :
  Py.isleap year = false ->
  greg_to_dek 1 1 year = Ok (1, 0, year) /\
  Reference.weekday 1 1 year = dek_to_week 1 0 year mod 7 + 1 /\
  dek_to_week 1 0 year <> Reference.weekday 1 1 year.
Proof.
  intros Hcommon.
  assert (Hfirst : valid_greg 1 1 year = true) by reflexivity.
  rewrite (reference_weekday_of_valid _ _ _ Hfirst).
  rewrite days_before_first by lia.
  destruct (first_auroran_by_day_count year) as [HW _].
  rewrite Hcommon in HW. cbn [Py.int_of_bool] in HW.
  split; [|split].
  - rewrite greg_to_dek_run by (rewrite ?days_before_first; lia).
    rewrite days_before_first, Hcommon by lia. reflexivity.
  - unfold dek_to_week, dekatrian_week. rewrite HW.
    change (0 =? 0) with true. cbv iota.
    f_equal. Z.div_mod_to_equations. lia.
  - unfold dek_to_week, dekatrian_week. rewrite HW.
    change (0 =? 0) with true. cbv iota.
    Z.div_mod_to_equations. lia.
Qed.

Lemma dek_to_week_achronian_common_year_witness :
  Py.isleap 2017 = false /\
  greg_to_dek 1 1 2017 = Ok (1, 0, 2017) /\
  Reference.weekday 1 1 2017 = dek_to_week 1 0 2017 mod 7 + 1 /\
  dek_to_week 1 0 2017 <> Reference.weekday 1 1 2017.
Proof.
  split; [reflexivity|].
  apply (dek_to_week_achronian_common_year 2017). reflexivity.
Defined.

(** X15.  From one year to the next the weekday of the first Auroran moves
    on by one, or by two when the next year is a leap year; after 400 years
    it is back, and so is every answer of [dek_to_week]. *)
Theorem week_day_on_first_auroran_next year :
  week_day_on_first_auroran (year + 1)
  = (week_day_on_first_auroran year
     + (if Py.isleap (year + 1) then 1 else 0)) mod 7 + 1 /\
  week_day_on_first_auroran (year + 400) = week_day_on_first_auroran year /\
  forall dek_day dek_month,
    dek_to_week dek_day dek_month (year + 400)
    = dek_to_week dek_day dek_month year.
Proof.
  assert (Hperiod :
    week_day_on_first_auroran (year + 400) = week_day_on_first_auroran year).
  { replace (year + 400) with (400 * 1 + year) by ring.
    apply week_day_on_first_auroran_period. }
  split; [|split].
  - destruct (first_auroran_by_day_count year) as [_ Hthis].
    destruct (first_auroran_by_day_count (year + 1)) as [Hnext _].
    rewrite Hthis, Hnext. unfold Py.int_of_bool.
    f_equal. Z.div_mod_to_equations. lia.
  - exact Hperiod.
  - intros dek_day dek_month. unfold dek_to_week. now rewrite Hperiod.
Qed.

(** X16.  Inside the thirteen months the weekday depends on the day number
    alone: it is the same in every month, repeats every 7 days, moves on by
    one from a day to the next, also from day 28 of a month to day 1 of
    another, and day 1 always falls on the weekday of the first Auroran. *)
Theorem dek_to_week_weekly dek_day dek_month dek_month' dek_year :
  dek_month <> 0 -> dek_month' <> 0 ->
  dek_to_week dek_day dek_month dek_year
  = dek_to_week dek_day dek_month' dek_year /\
  dek_to_week (dek_day + 7) dek_month dek_year
  = dek_to_week dek_day dek_month dek_year /\
  dek_to_week (dek_day + 1) dek_month dek_year
  = dek_to_week dek_day dek_month dek_year mod 7 + 1 /\
  dek_to_week 1 dek_month' dek_year
  = dek_to_week 28 dek_month dek_year mod 7 + 1 /\
  dek_to_week 1 dek_month dek_year = week_day_on_first_auroran dek_year /\
  1 <= dek_to_week dek_day dek_month dek_year <= 7.
Proof.
  intros Hm Hm'. apply Z.eqb_neq in Hm, Hm'.
  pose proof (week_day_on_first_auroran_range dek_year) as HW.
  unfold dek_to_week, dekatrian_week. rewrite Hm, Hm'.
  set (W := week_day_on_first_auroran dek_year) in *.
  repeat split; try (f_equal; Z.div_mod_to_equations; lia);
    Z.div_mod_to_equations; lia.
Qed.

Lemma dek_to_week_weekly_witness :
  dek_to_week 5 3 2017 = dek_to_week 5 11 2017 /\
  dek_to_week (5 + 7) 3 2017 = dek_to_week 5 3 2017 /\
  dek_to_week (5 + 1) 3 2017 = dek_to_week 5 3 2017 mod 7 + 1 /\
  dek_to_week 1 11 2017 = dek_to_week 28 3 2017 mod 7 + 1 /\
  dek_to_week 1 3 2017 = week_day_on_first_auroran 2017 /\
  1 <= dek_to_week 5 3 2017 <= 7.
Proof.
  apply (dek_to_week_weekly 5 3 11 2017); discriminate.
Defined.
